(** * DateTimeRangePicker: the range engine of [src/DateTimeRangePicker.tsx]

    A shallow embedding of the event handlers of the React component
    [DateTimeRangePicker] and of the Storybook wrapper that drives it,
    together with the properties its specification states about them.

    A JavaScript [Date] is modelled by its time value, the number of
    milliseconds since 1970-01-01T00:00:00Z, as an integer of [Z]; only
    valid dates are modelled.  [null] is [None]. *)

From Stdlib Require Import ZArith List String Bool Lia.
Import ListNotations.
Local Open Scope string_scope.
Local Open Scope Z_scope.

(** ** Data model *)

Definition Instant := Z.
Definition TimezoneId := string.

Definition msPerMinute : Z := 60000.
Definition msPerHour : Z := 3600000.
Definition msPerDay : Z := 86400000.

(** [DateTimeRange] of [./types]: [{ start, end, timezone }].  The field
    [end] is spelled [end_]. *)
Record DateTimeRange := mkRange {
  start : option Instant;
  end_ : option Instant;
  timezone : TimezoneId
}.

(** [Constraints] of [./types], with the shape the stories build:
    [{ min, max, blackouts: Date[], minDuration, maxDuration }], the two
    durations in milliseconds. *)
Record Constraints := mkConstraints {
  min : option Instant;
  max : option Instant;
  blackouts : list Instant;
  minDuration : option Z;
  maxDuration : option Z
}.

(** What [preset.getRange(now, tz)] returns: [{ start, end }]. *)
Record PresetRange := mkPresetRange {
  presetStart : Instant;
  presetEnd : Instant
}.

Record Preset := mkPreset {
  label : string;
  getRange : Instant -> TimezoneId -> PresetRange
}.

(** [useState({ hour, minute })]. *)
Record TimeOfDay := mkTime {
  hour : Z;
  minute : Z
}.

(** The component's own state that the handlers touch: [error],
    [startTime] and [endTime].  ([currentMonth] and [focusedDate] only
    drive the layout and the focus.) *)
Record LocalState := mkLocal {
  error : option string;
  startTime : TimeOfDay;
  endTime : TimeOfDay
}.

(** ['start' | 'end'] and ['hour' | 'minute']. *)
Inductive Endpoint := StartPoint | EndPoint.
Inductive Field := HourField | MinuteField.

(** ** Imports of the component

    [validateRange] and [isDateDisabled] come from [./utils];
    [utcToZonedTime] and [zonedTimeToUtc] from the package date-fns-tz;
    [setHours h m] is [Date.prototype.setHours], which works on the
    host's local fields of the date.  The handlers are written against
    these interfaces. *)
Class Utils := {
  validateRange : option Instant -> option Instant -> option Constraints -> option string;
  isDateDisabled : Instant -> option Constraints -> TimezoneId -> bool
}.

Class DateFnsTz := {
  utcToZonedTime : Instant -> TimezoneId -> Instant;
  zonedTimeToUtc : Instant -> TimezoneId -> Instant;
  setHours : Instant -> Z -> Z -> Instant
}.

(** ** The handlers *)

(** [isBefore(a, b)] of date-fns: [a.getTime() < b.getTime()]. *)
Definition isBefore (a b : Instant) : bool := a <? b.

(** JavaScript truthiness of a [string | null]: [!!error]. *)
Definition truthy (e : option string) : bool :=
  match e with
  | Some s => negb (String.eqb s "")
  | None => false
  end.

Definition setError (e : option string) (l : LocalState) : LocalState :=
  mkLocal e (startTime l) (endTime l).

(** A handler returns the component's next local state and the values it
    passed to [onChange], in order. *)
Definition Outcome : Type := LocalState * list DateTimeRange.

(** [handleDateSelect], lines 39-57. *)
Definition handleDateSelect `{Utils} (value : DateTimeRange)
    (constraints : option Constraints) (l : LocalState) (date : Instant) : Outcome :=
  let tz := timezone value in
  if isDateDisabled date constraints tz then (l, [])
  else
    let '(newStart, newEnd) :=
      match start value, end_ value with
      | Some s, None =>
          if isBefore date s then (Some date, Some s) else (Some s, Some date)
      | _, _ => (Some date, None)
      end in
    (setError (validateRange newStart newEnd constraints) l,
     [mkRange newStart newEnd tz]).

Definition setField (t : TimeOfDay) (field : Field) (val : Z) : TimeOfDay :=
  match field with
  | HourField => mkTime val (minute t)
  | MinuteField => mkTime (hour t) val
  end.

(** [handleTimeChange], lines 59-81. *)
Definition handleTimeChange `{Utils} `{DateFnsTz} (value : DateTimeRange)
    (constraints : option Constraints) (l : LocalState)
    (type : Endpoint) (field : Field) (val : Z) : Outcome :=
  let tz := timezone value in
  let updatedTime :=
    match type with
    | StartPoint => setField (startTime l) field val
    | EndPoint => setField (endTime l) field val
    end in
  let l1 :=
    match type with
    | StartPoint => mkLocal (error l) updatedTime (endTime l)
    | EndPoint => mkLocal (error l) (startTime l) updatedTime
    end in
  let edit (i : Instant) :=
    zonedTimeToUtc
      (setHours (utcToZonedTime i tz) (hour updatedTime) (minute updatedTime)) tz in
  let newValue :=
    match type, start value, end_ value with
    | StartPoint, Some s, _ => mkRange (Some (edit s)) (end_ value) tz
    | EndPoint, _, Some e => mkRange (start value) (Some (edit e)) tz
    | _, _, _ => value
    end in
  (setError (validateRange (start newValue) (end_ newValue) constraints) l1,
   [newValue]).

(** [handlePresetSelect], lines 83-88; [now] is the [new Date()] it reads. *)
Definition handlePresetSelect (value : DateTimeRange) (l : LocalState)
    (preset : Preset) (now : Instant) : Outcome :=
  let tz := timezone value in
  let range := getRange preset now tz in
  (setError None l,
   [mkRange (Some (presetStart range)) (Some (presetEnd range)) tz]).

(** The [onChange] of the timezone [<select>], line 141. *)
Definition handleTimezoneSelect (value : DateTimeRange) (l : LocalState)
    (newTz : TimezoneId) : Outcome :=
  (l, [mkRange (start value) (end_ value) newTz]).

(** The [disabled] attribute of the Apply button, line 281. *)
Definition applyDisabled (value : DateTimeRange) (l : LocalState) : bool :=
  truthy (error l)
  || match start value with Some _ => false | None => true end
  || match end_ value with Some _ => false | None => true end.

(** ** The stateful wrapper of the stories

    [StatefulDateTimeRangePicker] keeps [value] in a [useState] and passes
    [setValue] as [onChange]: the last value handed to [onChange] is the
    next [value] prop. *)
Record Picker := mkPicker {
  value : DateTimeRange;
  local : LocalState
}.

Definition mount (initialValue : DateTimeRange) : Picker :=
  mkPicker initialValue (mkLocal None (mkTime 0 0) (mkTime 23 59)).

Definition commit (p : Picker) (o : Outcome) : Picker :=
  mkPicker (last (snd o) (value p)) (fst o).

Definition applyEnabled (p : Picker) : bool :=
  negb (applyDisabled (value p) (local p)).

Definition dateClicked `{Utils} (constraints : option Constraints)
    (p : Picker) (date : Instant) : Picker :=
  commit p (handleDateSelect (value p) constraints (local p) date).

Definition timeFieldChanged `{Utils} `{DateFnsTz} (constraints : option Constraints)
    (p : Picker) (type : Endpoint) (field : Field) (val : Z) : Picker :=
  commit p (handleTimeChange (value p) constraints (local p) type field val).

Definition presetClicked (p : Picker) (preset : Preset) (now : Instant) : Picker :=
  commit p (handlePresetSelect (value p) (local p) preset now).

Definition timezoneChanged (p : Picker) (newTz : TimezoneId) : Picker :=
  commit p (handleTimezoneSelect (value p) (local p) newTz).

(** A run of date clicks, oldest first. *)
Definition dateClicks `{Utils} (constraints : option Constraints)
    (p : Picker) (dates : list Instant) : Picker :=
  fold_left (dateClicked constraints) dates p.

(** ** The calendar header: [startIndex], lines 34-37 *)

Inductive Weekday := Mon | Tue | Wed | Thu | Fri | Sat | Sun.

(** The host's timezone database, as [Intl] sees it: the UTC offset, in
    milliseconds, a zone has at an instant; [None] for an identifier the
    host cannot resolve (the [Intl.DateTimeFormat] constructor throws a
    [RangeError] on it). *)
Definition TzDb : Type := TimezoneId -> option (Instant -> Z).

(** Number of the calendar day, counted from 1970-01-01, that an instant
    falls on in a zone of offset [off]. *)
Definition zonedDay (off : Instant -> Z) (i : Instant) : Z :=
  (i + off i) / msPerDay.

(** Day 0, the first of January 1970, was a Thursday. *)
Definition weekdayOfDay (d : Z) : Weekday :=
  match (d + 3) mod 7 with
  | 0 => Mon
  | 1 => Tue
  | 2 => Wed
  | 3 => Thu
  | 4 => Fri
  | 5 => Sat
  | _ => Sun
  end.

Definition zonedWeekday (db : TzDb) (tz : TimezoneId) (i : Instant) : option Weekday :=
  match db tz with
  | Some off => Some (weekdayOfDay (zonedDay off i))
  | None => None
  end.

(** The letters [Intl.DateTimeFormat('en', { weekday: 'narrow' })] prints. *)
Definition narrow (w : Weekday) : string :=
  match w with
  | Mon => "M"
  | Tue => "T"
  | Wed => "W"
  | Thu => "T"
  | Fri => "F"
  | Sat => "S"
  | Sun => "S"
  end.

(** [new Intl.DateTimeFormat('en', { timeZone: tz, weekday: 'narrow' }).format(d)]. *)
Definition formatWeekdayNarrow (db : TzDb) (tz : TimezoneId) (d : Instant) : option string :=
  option_map narrow (zonedWeekday db tz d).

Definition weekDays : list string := ["M"; "T"; "W"; "T"; "F"; "S"; "S"].

(** [Array.prototype.indexOf]: the first index holding [x], or [-1]. *)
Fixpoint indexOfFrom (k : Z) (x : string) (l : list string) : Z :=
  match l with
  | [] => -1
  | y :: rest => if String.eqb y x then k else indexOfFrom (k + 1) x rest
  end.

Definition indexOf (l : list string) (x : string) : Z := indexOfFrom 0 x l.

(** [startIndex]; [None] when the formatter throws. *)
Definition startIndex (db : TzDb) (tz : TimezoneId) (firstDay : Instant) : option Z :=
  option_map (indexOf weekDays) (formatWeekdayNarrow db tz firstDay).

(** The blank cells rendered before the first day:
    [Array.from({ length: startIndex })]; a negative length gives none. *)
Definition leadingBlanks (db : TzDb) (tz : TimezoneId) (firstDay : Instant) : option Z :=
  option_map (Z.max 0) (startIndex db tz firstDay).

(** Monday-first (ISO) index of a weekday. *)
Definition isoWeekdayIndex (w : Weekday) : Z :=
  match w with
  | Mon => 0
  | Tue => 1
  | Wed => 2
  | Thu => 3
  | Fri => 4
  | Sat => 5
  | Sun => 6
  end.

(** ** Concrete instants and zones *)

(** Days from 1970-01-01 to the civil date [y]-[m]-[d] of the proleptic
    Gregorian calendar, [m] counted from 1. *)
Definition daysFromCivil (y m d : Z) : Z :=
  let y' := if m <=? 2 then y - 1 else y in
  let era := y' / 400 in
  let yoe := y' - era * 400 in
  let mp := if m <=? 2 then m + 9 else m - 3 in
  let doy := (153 * mp + 2) / 5 + d - 1 in
  let doe := yoe * 365 + yoe / 4 - yoe / 100 + doy in
  era * 146097 + doe - 719468.

(** The instant [y-m-dTh:mi:00Z]. *)
Definition dateUTC (y m d h mi : Z) : Instant :=
  daysFromCivil y m d * msPerDay + h * msPerHour + mi * msPerMinute.

(** The zones the component offers, with the rules in force in 2023:
    Tokyo is at +9h all year, London at +1h and New York at -4h between
    their 2023 transitions and at 0h and -5h outside. *)
Definition newYork2023 (i : Instant) : Z :=
  if (dateUTC 2023 3 12 7 0 <=? i) && (i <? dateUTC 2023 11 5 6 0)
  then -4 * msPerHour else -5 * msPerHour.

Definition tzdata2023 : TzDb := fun tz =>
  if String.eqb tz "Asia/Tokyo" then Some (fun _ => 9 * msPerHour)
  else if String.eqb tz "Europe/London" then
    Some (fun i =>
      if (dateUTC 2023 3 26 1 0 <=? i) && (i <? dateUTC 2023 10 29 1 0)
      then msPerHour else 0)
  else if String.eqb tz "America/New_York" then Some newYork2023
  else if String.eqb tz "UTC" then Some (fun _ => 0)
  else None.

(** ** The helpers of [./utils], after the specification *)

Inductive Violation :=
  BelowMinimum | AboveMaximum | ContainsBlackout | TooShort | TooLong.

Inductive Validation := Ok | Violated (v : Violation).

(** Modelled from the spec: rule 2 of section 4.3, [constraints.min]
    present and [start < min]; [./utils] is not among the sources. *)
Definition belowMinimum (c : Constraints) (s : Instant) : bool :=
  match min c with Some m => s <? m | None => false end.

(** Modelled from the spec: rule 3 of section 4.3, [constraints.max]
    present and [end > max]; [./utils] is not among the sources. *)
Definition aboveMaximum (c : Constraints) (e : Instant) : bool :=
  match max c with Some m => m <? e | None => false end.

(** Modelled from the spec: rule 4 of section 4.3, a blackout date lies
    within [s, e] inclusive, compared by zoned calendar date; [./utils]
    is not among the sources. *)
Definition containsBlackout (off : Instant -> Z) (c : Constraints) (s e : Instant) : bool :=
  existsb (fun b => (zonedDay off s <=? zonedDay off b)
                    && (zonedDay off b <=? zonedDay off e)) (blackouts c).

(** Modelled from the spec: rule 5 of section 4.3, [minDuration] present
    and [end - start < minDuration]; [./utils] is not among the sources. *)
Definition tooShort (c : Constraints) (s e : Instant) : bool :=
  match minDuration c with Some d => e - s <? d | None => false end.

(** Modelled from the spec: rule 6 of section 4.3, [maxDuration] present
    and [end - start > maxDuration]; [./utils] is not among the sources. *)
Definition tooLong (c : Constraints) (s e : Instant) : bool :=
  match maxDuration c with Some d => d <? e - s | None => false end.

(** Modelled from the spec: [validateRange] of [./utils] is not among the
    sources; this is [RangeConstraintValidator.validate] of section 4.3,
    its six rules in the order given there.  [off] is the zone in which
    calendar dates are read. *)
Definition validate (off : Instant -> Z) (s e : option Instant) (c : Constraints) : Validation :=
  match s, e with
  | Some s, Some e =>
      if belowMinimum c s then Violated BelowMinimum
      else if aboveMaximum c e then Violated AboveMaximum
      else if containsBlackout off c s e then Violated ContainsBlackout
      else if tooShort c s e then Violated TooShort
      else if tooLong c s e then Violated TooLong
      else Ok
  | _, _ => Ok
  end.

(** Modelled from the spec: [isDateDisabled] of [./utils] is not among the
    sources; section 4.4 calls a date disabled when it is before
    [constraints.min], after [constraints.max], or on a blackout date,
    compared by zoned calendar date. *)
Definition dateDisabled (off : Instant -> Z) (date : Instant) (c : Constraints) : bool :=
  belowMinimum c date
  || aboveMaximum c date
  || existsb (fun b => zonedDay off b =? zonedDay off date) (blackouts c).

(** The rules of section 4.3 and the disabled dates of section 4.4, as
    propositions. *)
Definition BelowMin (c : Constraints) (s : Instant) : Prop :=
  exists m, min c = Some m /\ s < m.

Definition AboveMax (c : Constraints) (e : Instant) : Prop :=
  exists m, max c = Some m /\ m < e.

Definition HasBlackout (off : Instant -> Z) (c : Constraints) (s e : Instant) : Prop :=
  exists b, In b (blackouts c) /\
            zonedDay off s <= zonedDay off b /\ zonedDay off b <= zonedDay off e.

Definition Shorter (c : Constraints) (s e : Instant) : Prop :=
  exists d, minDuration c = Some d /\ e - s < d.

Definition Longer (c : Constraints) (s e : Instant) : Prop :=
  exists d, maxDuration c = Some d /\ d < e - s.

Definition OnBlackout (off : Instant -> Z) (c : Constraints) (date : Instant) : Prop :=
  exists b, In b (blackouts c) /\ zonedDay off b = zonedDay off date.

(** The text shown for a violation is not fixed by the specification; the
    name of the rule stands for it. *)
Definition violationText (v : Violation) : string :=
  match v with
  | BelowMinimum => "BelowMinimum"
  | AboveMaximum => "AboveMaximum"
  | ContainsBlackout => "ContainsBlackout"
  | TooShort => "TooShort"
  | TooLong => "TooLong"
  end.

(** Modelled from the spec: the two helpers with the signatures the
    component calls them at.  [validateRange] is not handed the timezone,
    so the zone it reads calendar dates in is [host]; without constraints
    nothing is flagged and nothing is disabled.  A timezone the database
    cannot resolve is a configuration error in the specification and lies
    outside this model: no date counts as disabled then. *)
Definition specUtils (db : TzDb) (host : Instant -> Z) : Utils := {|
  validateRange s e c :=
    match c with
    | Some c =>
        match validate host s e c with
        | Ok => None
        | Violated v => Some (violationText v)
        end
    | None => None
    end;
  isDateDisabled date c tz :=
    match c, db tz with
    | Some c, Some off => dateDisabled off date c
    | _, _ => false
    end
|}.

(** ** The stories *)

(** The instant at which the stories module is loaded, its [new Date()]. *)
Definition storyLoad : Instant := dateUTC 2023 11 20 12 0.

(** [constraints] of the stories, on a host whose zone is UTC. *)
Definition storyConstraints : Constraints := {|
  min := Some (storyLoad - 30 * msPerDay);
  max := Some storyLoad;
  blackouts := [dateUTC 2023 11 11 0 0];
  minDuration := Some (1000 * 60 * 60);
  maxDuration := Some (1000 * 60 * 60 * 24 * 7)
|}.

(** [defaultValue] of the stories. *)
Definition defaultValue : DateTimeRange :=
  mkRange None None "America/New_York".

(** The presets of the stories; [subDays(now, n)] on a host at UTC. *)
Definition last24Hours : Preset :=
  mkPreset "Last 24 hours" (fun now _ => mkPresetRange (now - 1 * msPerDay) now).

Definition last7Days : Preset :=
  mkPreset "Last 7 days" (fun now _ => mkPresetRange (now - 7 * msPerDay) now).

(** The value of the story [InvalidRange], rendered five seconds after the
    module was loaded: [{ start: new Date(), end: subDays(new Date(), 10) }]. *)
Definition invalidRange : DateTimeRange :=
  mkRange (Some (storyLoad + 5000)) (Some (storyLoad + 5000 - 10 * msPerDay))
          "America/New_York".

(** The helpers as the stories meet them: the zones of 2023, on a host
    whose zone is UTC. *)
Definition storyUtils : Utils := specUtils tzdata2023 (fun _ => 0).

(** Both ends of the range are present. *)
Definition bothPresent (r : DateTimeRange) : bool :=
  match start r, end_ r with
  | Some _, Some _ => true
  | _, _ => false
  end.

(** A range is ordered when, both ends present, [start <= end]. *)
Definition ordered (r : DateTimeRange) : Prop :=
  forall s e, start r = Some s -> end_ r = Some e -> s <= e.

(** ** The rest of the component *)

(** [isInRange], lines 112-115: the cells between start and end. *)
Definition isInRange (value : DateTimeRange) (date : Instant) : bool :=
  match start value, end_ value with
  | Some s, Some e => (s <=? date) && (date <=? e)
  | _, _ => false
  end.

(** [addDays] of date-fns moves a date by whole days of the host's
    calendar. *)
Class DateFns := {
  addDays : Instant -> Z -> Instant
}.

(** What a key press does: the next [focusedDate], whether
    [e.preventDefault()] was called, and what the date handler did. *)
Record KeyOutcome := mkKeyOutcome {
  nextFocus : option Instant;
  defaultPrevented : bool;
  selection : Outcome
}.

(** [handleKeyDown], lines 90-103, on the key [e.key]. *)
Definition handleKeyDown `{Utils} `{DateFns} (value : DateTimeRange)
    (constraints : option Constraints) (l : LocalState)
    (focusedDate : option Instant) (key : string) : KeyOutcome :=
  match focusedDate with
  | None => mkKeyOutcome None false (l, [])
  | Some f =>
      if String.eqb key "ArrowLeft" then mkKeyOutcome (Some (addDays f (-1))) true (l, [])
      else if String.eqb key "ArrowRight" then mkKeyOutcome (Some (addDays f 1)) true (l, [])
      else if String.eqb key "ArrowUp" then mkKeyOutcome (Some (addDays f (-7))) true (l, [])
      else if String.eqb key "ArrowDown" then mkKeyOutcome (Some (addDays f 7)) true (l, [])
      else if String.eqb key "Enter" then
        mkKeyOutcome (Some f) false (handleDateSelect value constraints l f)
      else mkKeyOutcome (Some f) false (l, [])
  end.

(** The events that reach the handlers of the range. *)
Inductive Event :=
| DateClick (date : Instant)
| TimeEdit (type : Endpoint) (field : Field) (val : Z)
| PresetClick (preset : Preset) (now : Instant)
| TimezoneSelect (newTz : TimezoneId).

Definition dispatch `{Utils} `{DateFnsTz} (constraints : option Constraints)
    (p : Picker) (ev : Event) : Picker :=
  match ev with
  | DateClick date => dateClicked constraints p date
  | TimeEdit type field val => timeFieldChanged constraints p type field val
  | PresetClick preset now => presetClicked p preset now
  | TimezoneSelect newTz => timezoneChanged p newTz
  end.

(** A run of events, oldest first. *)
Definition run `{Utils} `{DateFnsTz} (constraints : option Constraints)
    (p : Picker) (events : list Event) : Picker :=
  fold_left (dispatch constraints) events p.

(** The Apply button says what [validateRange] says of the range shown. *)
Definition gateFollowsValidation `{Utils} (constraints : option Constraints)
    (p : Picker) : Prop :=
  applyEnabled p =
    bothPresent (value p)
    && negb (truthy (validateRange (start (value p)) (end_ (value p)) constraints)).

(** The range a preset event gives passes [validateRange], in any zone. *)
Definition presetPasses `{Utils} (constraints : option Constraints) (ev : Event) : Prop :=
  match ev with
  | PresetClick preset now =>
      forall tz,
        truthy (validateRange (Some (presetStart (getRange preset now tz)))
                              (Some (presetEnd (getRange preset now tz))) constraints)
        = false
  | _ => True
  end.

(** The range a preset event gives has its start no later than its end,
    in any zone. *)
Definition presetOrdered (ev : Event) : Prop :=
  match ev with
  | PresetClick preset now =>
      forall tz, presetStart (getRange preset now tz) <= presetEnd (getRange preset now tz)
  | _ => True
  end.

Definition isTimeEdit (ev : Event) : bool :=
  match ev with
  | TimeEdit _ _ _ => true
  | _ => false
  end.

(** The timezones a run selects, oldest first. *)
Definition selectedTimezones (events : list Event) : list TimezoneId :=
  flat_map (fun ev => match ev with TimezoneSelect tz => [tz] | _ => [] end) events.

(** The range is not waiting for its end: it has no start, or both ends. *)
Definition settled (r : DateTimeRange) : Prop :=
  start r = None \/ exists s e, start r = Some s /\ end_ r = Some e.

(** The instants a range holds. *)
Definition endpoints (r : DateTimeRange) : list Instant :=
  match start r with Some s => [s] | None => [] end
  ++ match end_ r with Some e => [e] | None => [] end.

(** The two times of day in the inputs. *)
Definition timesOf (p : Picker) : TimeOfDay * TimeOfDay :=
  (startTime (local p), endTime (local p)).

(** A host at UTC showing the zone UTC: the zoned view of a date is the
    date itself, and [setHours h m] replaces the hour and minute of the
    UTC day, keeping seconds and milliseconds. *)
Definition utcHost : DateFnsTz := {|
  utcToZonedTime i _ := i;
  zonedTimeToUtc i _ := i;
  setHours i h m :=
    i - i mod msPerDay + h * msPerHour + m * msPerMinute + i mod msPerMinute
|}.

(** On a host at UTC a calendar day is 24 hours. *)
Definition utcDays : DateFns := {|
  addDays i n := i + n * msPerDay
|}.

(** * Properties *)

(** ** Date clicks *)

Section DateClicks.
Context {U : Utils}.
Variable constraints : option Constraints.

Lemma handleDateSelect_disabled (v : DateTimeRange) (l : LocalState) (d : Instant) :
  isDateDisabled d constraints (timezone v) = true ->
  handleDateSelect v constraints l d = (l, []).
Proof.
  intros Hd. unfold handleDateSelect. now rewrite Hd.
Qed.

Lemma dateClicked_disabled (p : Picker) (d : Instant) :
  isDateDisabled d constraints (timezone (value p)) = true ->
  dateClicked constraints p d = p.
Proof.
  intros Hd. unfold dateClicked.
  rewrite (handleDateSelect_disabled _ _ _ Hd).
  now destruct p.
Qed.

(** What an accepted click makes of the range. *)
Lemma dateClicked_enabled (p : Picker) (d : Instant) :
  isDateDisabled d constraints (timezone (value p)) = false ->
  value (dateClicked constraints p d) =
    match start (value p), end_ (value p) with
    | Some s, None =>
        if d <? s then mkRange (Some d) (Some s) (timezone (value p))
        else mkRange (Some s) (Some d) (timezone (value p))
    | _, _ => mkRange (Some d) None (timezone (value p))
    end.
Proof.
  intros Hd. unfold dateClicked, handleDateSelect, isBefore. rewrite Hd.
  destruct (start (value p)) as [s|], (end_ (value p)) as [e|]; cbn; try reflexivity.
  now destruct (d <? s).
Qed.

Lemma dateClicked_timezone (p : Picker) (d : Instant) :
  timezone (value (dateClicked constraints p d)) = timezone (value p).
Proof.
  destruct (isDateDisabled d constraints (timezone (value p))) eqn:Hd.
  - now rewrite dateClicked_disabled.
  - rewrite dateClicked_enabled by assumption.
    destruct (start (value p)) as [s|], (end_ (value p)) as [e|]; try reflexivity.
    now destruct (d <? s).
Qed.

Lemma dateClicked_enabled_ordered (p : Picker) (d : Instant) :
  isDateDisabled d constraints (timezone (value p)) = false ->
  ordered (value (dateClicked constraints p d)).
Proof.
  intros Hd. rewrite dateClicked_enabled by assumption.
  destruct (start (value p)) as [s|], (end_ (value p)) as [e|];
    try (intros a b _ Hb; discriminate Hb).
  destruct (d <? s) eqn:Hlt; intros a b Ha Hb; cbn in Ha, Hb;
    injection Ha as <-; injection Hb as <-.
  - apply Z.ltb_lt in Hlt. lia.
  - apply Z.ltb_ge in Hlt. lia.
Qed.

Lemma dateClicked_keeps_ordered (p : Picker) (d : Instant) :
  ordered (value p) -> ordered (value (dateClicked constraints p d)).
Proof.
  intros Ho.
  destruct (isDateDisabled d constraints (timezone (value p))) eqn:Hd.
  - now rewrite dateClicked_disabled.
  - now apply dateClicked_enabled_ordered.
Qed.

Lemma dateClicks_keeps_ordered (dates : list Instant) :
  forall p, ordered (value p) -> ordered (value (dateClicks constraints p dates)).
Proof.
  induction dates as [|d dates IH]; intros p Ho; cbn.
  - exact Ho.
  - apply IH. now apply dateClicked_keeps_ordered.
Qed.

Lemma dateClicks_accepted_ordered (dates : list Instant) :
  forall p,
    Exists (fun d => isDateDisabled d constraints (timezone (value p)) = false) dates ->
    ordered (value (dateClicks constraints p dates)).
Proof.
  induction dates as [|d dates IH]; intros p Hex.
  - inversion Hex.
  - cbn. apply Exists_cons in Hex. destruct Hex as [Hd | Hex].
    + apply dateClicks_keeps_ordered. now apply dateClicked_enabled_ordered.
    + apply IH. now rewrite dateClicked_timezone.
Qed.

End DateClicks.

(** C3 (as amended).  Along any run of date clicks the range stays ordered,
    [start <= end] whenever both are present, provided the run starts from
    an ordered range or contains at least one click on a date that is not
    disabled; and a click on an enabled date earlier than the start of a
    range without end yields the swapped pair, the clicked date as start
    and the prior start as end. *)
Theorem date_clicks_keep_order {U : Utils} (constraints : option Constraints) :
  (forall (p : Picker) (dates : list Instant),
     ordered (value p) \/
     Exists (fun d => isDateDisabled d constraints (timezone (value p)) = false) dates ->
     ordered (value (dateClicks constraints p dates)))
  /\
  (forall (p : Picker) (s d : Instant),
     start (value p) = Some s -> end_ (value p) = None -> d < s ->
     isDateDisabled d constraints (timezone (value p)) = false ->
     value (dateClicked constraints p d) =
       mkRange (Some d) (Some s) (timezone (value p))).
Proof.
  split.
  - intros p dates [Ho | Hex].
    + now apply dateClicks_keeps_ordered.
    + now apply dateClicks_accepted_ordered.
  - intros p s d Hs He Hlt Hd.
    rewrite dateClicked_enabled by assumption.
    rewrite Hs, He. apply Z.ltb_lt in Hlt. now rewrite Hlt.
Qed.

(** The run of C3 on the story [InvalidRange]: two clicks, on the 15th and
    then on the 13th of November 2023 (New York midnights), both enabled. *)
Lemma date_clicks_keep_order_witness :
  Exists (fun d => @isDateDisabled storyUtils d (Some storyConstraints)
                     (timezone (value (mount invalidRange))) = false)
         [dateUTC 2023 11 15 5 0; dateUTC 2023 11 13 5 0]
  /\ ordered (value (@dateClicks storyUtils (Some storyConstraints) (mount invalidRange)
                       [dateUTC 2023 11 15 5 0; dateUTC 2023 11 13 5 0])).
Proof.
  assert (H : Exists (fun d => @isDateDisabled storyUtils d (Some storyConstraints)
                     (timezone (value (mount invalidRange))) = false)
         [dateUTC 2023 11 15 5 0; dateUTC 2023 11 13 5 0]).
  { apply Exists_cons_hd. vm_compute. reflexivity. }
  split.
  - exact H.
  - apply (proj1 (@date_clicks_keep_order storyUtils (Some storyConstraints))).
    right. exact H.
Defined.

(** C3 as stated fails, twice.  The story [InvalidRange] starts from a
    range whose end lies ten days before its start, and a click on the
    first of December 2023, a date after [constraints.max], leaves it as
    it is.  And from a range that starts on the 15th of November 2023 and
    has no end, a click on the first of October, a date before
    [constraints.min], is ignored: the pair is not swapped. *)
Lemma date_click_order_counterexample :
  (let p := @dateClicks storyUtils (Some storyConstraints) (mount invalidRange)
              [dateUTC 2023 12 1 5 0] in
   start (value p) = Some (storyLoad + 5000) /\
   end_ (value p) = Some (storyLoad + 5000 - 10 * msPerDay) /\
   ~ ordered (value p))
  /\
  (let s := dateUTC 2023 11 15 5 0 in
   let d := dateUTC 2023 10 1 4 0 in
   let p := mount (mkRange (Some s) None "America/New_York") in
   d < s /\
   value (@dateClicked storyUtils (Some storyConstraints) p d) = value p /\
   value (@dateClicked storyUtils (Some storyConstraints) p d)
     <> mkRange (Some d) (Some s) "America/New_York").
Proof.
  split.
  - split; [reflexivity | split; [reflexivity |]].
    intros Ho.
    specialize (Ho (storyLoad + 5000) (storyLoad + 5000 - 10 * msPerDay) eq_refl eq_refl).
    vm_compute in Ho. apply Ho. reflexivity.
  - split; [reflexivity | split; [reflexivity | discriminate]].
Qed.

(** C8.  From a range without start (Empty) or with both ends (Complete),
    a click on a date that is not disabled gives the range that starts at
    the clicked date and has no end, in the same timezone. *)
Theorem date_click_starts_new_range {U : Utils} (constraints : option Constraints)
    (p : Picker) (d : Instant) :
  isDateDisabled d constraints (timezone (value p)) = false ->
  start (value p) = None \/
  (exists s e, start (value p) = Some s /\ end_ (value p) = Some e) ->
  value (dateClicked constraints p d) = mkRange (Some d) None (timezone (value p)).
Proof.
  intros Hd Hstate.
  rewrite dateClicked_enabled by assumption.
  destruct Hstate as [Hs | (s & e & Hs & He)].
  - rewrite Hs. now destruct (end_ (value p)).
  - now rewrite Hs, He.
Qed.

(** C8 on a complete range, the 13th to the 15th of November 2023, and a
    click on the 14th. *)
Lemma date_click_starts_new_range_witness :
  let p := mount (mkRange (Some (dateUTC 2023 11 13 5 0)) (Some (dateUTC 2023 11 15 5 0))
                          "America/New_York") in
  value (@dateClicked storyUtils (Some storyConstraints) p (dateUTC 2023 11 14 5 0)) =
    mkRange (Some (dateUTC 2023 11 14 5 0)) None "America/New_York".
Proof.
  intro p.
  apply (@date_click_starts_new_range storyUtils (Some storyConstraints) p
           (dateUTC 2023 11 14 5 0)).
  - vm_compute. reflexivity.
  - right. exists (dateUTC 2023 11 13 5 0), (dateUTC 2023 11 15 5 0).
    split; reflexivity.
Defined.

(** C10.  Choosing another timezone hands on a range with the same start
    and end instants and the chosen timezone, and leaves the component's
    own state alone. *)
Theorem timezone_change_keeps_instants (p : Picker) (newTz : TimezoneId) :
  start (value (timezoneChanged p newTz)) = start (value p) /\
  end_ (value (timezoneChanged p newTz)) = end_ (value p) /\
  timezone (value (timezoneChanged p newTz)) = newTz /\
  local (timezoneChanged p newTz) = local p.
Proof.
  repeat split.
Qed.

(** ** The rules of the validator *)

Lemma belowMinimum_iff (c : Constraints) (s : Instant) :
  belowMinimum c s = true <-> BelowMin c s.
Proof.
  unfold belowMinimum, BelowMin. destruct (min c) as [m|].
  - rewrite Z.ltb_lt. split.
    + intros H. now exists m.
    + intros (m' & Hm & H). now injection Hm as ->.
  - split; [discriminate | intros (m' & Hm & _); discriminate].
Qed.

Lemma aboveMaximum_iff (c : Constraints) (e : Instant) :
  aboveMaximum c e = true <-> AboveMax c e.
Proof.
  unfold aboveMaximum, AboveMax. destruct (max c) as [m|].
  - rewrite Z.ltb_lt. split.
    + intros H. now exists m.
    + intros (m' & Hm & H). now injection Hm as ->.
  - split; [discriminate | intros (m' & Hm & _); discriminate].
Qed.

Lemma containsBlackout_iff (off : Instant -> Z) (c : Constraints) (s e : Instant) :
  containsBlackout off c s e = true <-> HasBlackout off c s e.
Proof.
  unfold containsBlackout, HasBlackout. rewrite existsb_exists.
  split; intros (b & Hin & H); exists b; split; trivial.
  - apply andb_true_iff in H. now rewrite !Z.leb_le in H.
  - apply andb_true_iff. now rewrite !Z.leb_le.
Qed.

Lemma tooShort_iff (c : Constraints) (s e : Instant) :
  tooShort c s e = true <-> Shorter c s e.
Proof.
  unfold tooShort, Shorter. destruct (minDuration c) as [d|].
  - rewrite Z.ltb_lt. split.
    + intros H. now exists d.
    + intros (d' & Hd & H). now injection Hd as ->.
  - split; [discriminate | intros (d' & Hd & _); discriminate].
Qed.

Lemma tooLong_iff (c : Constraints) (s e : Instant) :
  tooLong c s e = true <-> Longer c s e.
Proof.
  unfold tooLong, Longer. destruct (maxDuration c) as [d|].
  - rewrite Z.ltb_lt. split.
    + intros H. now exists d.
    + intros (d' & Hd & H). now injection Hd as ->.
  - split; [discriminate | intros (d' & Hd & _); discriminate].
Qed.

Lemma dateDisabled_iff (off : Instant -> Z) (c : Constraints) (d : Instant) :
  dateDisabled off d c = true <-> BelowMin c d \/ AboveMax c d \/ OnBlackout off c d.
Proof.
  unfold dateDisabled. rewrite !orb_true_iff, belowMinimum_iff, aboveMaximum_iff.
  assert (Hb : existsb (fun b => zonedDay off b =? zonedDay off d) (blackouts c) = true
               <-> OnBlackout off c d).
  { unfold OnBlackout. rewrite existsb_exists.
    split; intros (b & Hin & H); exists b; split; trivial.
    - now apply Z.eqb_eq.
    - now apply Z.eqb_eq. }
  rewrite Hb. tauto.
Qed.

Lemma not_true_iff (b : bool) (P : Prop) : (b = true <-> P) -> (b = false <-> ~ P).
Proof.
  intros H. destruct b; split.
  - discriminate.
  - intros HP. exfalso. apply HP. now apply H.
  - intros _ HP. apply H in HP. discriminate.
  - reflexivity.
Qed.

(** C7.  [validate] answers [Ok] whenever an end of the range is absent,
    whatever the constraints; on a complete range it answers with the
    first rule violated in the order BelowMinimum, AboveMaximum,
    ContainsBlackout (calendar days compared in the zone), TooShort,
    TooLong, and with [Ok] exactly when no rule is violated. *)
Theorem validate_first_violation_wins (off : Instant -> Z) (c : Constraints) :
  (forall e, validate off None e c = Ok) /\
  (forall s, validate off s None c = Ok) /\
  (forall s e : Instant,
     let r := validate off (Some s) (Some e) c in
     (r = Violated BelowMinimum <-> BelowMin c s) /\
     (r = Violated AboveMaximum <-> ~ BelowMin c s /\ AboveMax c e) /\
     (r = Violated ContainsBlackout <->
        ~ BelowMin c s /\ ~ AboveMax c e /\ HasBlackout off c s e) /\
     (r = Violated TooShort <->
        ~ BelowMin c s /\ ~ AboveMax c e /\ ~ HasBlackout off c s e /\ Shorter c s e) /\
     (r = Violated TooLong <->
        ~ BelowMin c s /\ ~ AboveMax c e /\ ~ HasBlackout off c s e /\
        ~ Shorter c s e /\ Longer c s e) /\
     (r = Ok <->
        ~ BelowMin c s /\ ~ AboveMax c e /\ ~ HasBlackout off c s e /\
        ~ Shorter c s e /\ ~ Longer c s e)).
Proof.
  split; [reflexivity | split; [now intros [s|] |]].
  intros s e r. subst r. unfold validate.
  pose proof (belowMinimum_iff c s) as H1.
  pose proof (aboveMaximum_iff c e) as H2.
  pose proof (containsBlackout_iff off c s e) as H3.
  pose proof (tooShort_iff c s e) as H4.
  pose proof (tooLong_iff c s e) as H5.
  pose proof (not_true_iff _ _ H1) as N1.
  pose proof (not_true_iff _ _ H2) as N2.
  pose proof (not_true_iff _ _ H3) as N3.
  pose proof (not_true_iff _ _ H4) as N4.
  pose proof (not_true_iff _ _ H5) as N5.
  destruct (belowMinimum c s), (aboveMaximum c e), (containsBlackout off c s e),
           (tooShort c s e), (tooLong c s e);
    repeat split; intros; try discriminate; try tauto;
    try (exfalso; tauto).
Qed.

(** The two validation scenarios of the specification: a blackout on the
    11th of November 2023 in New York, and a range of thirty minutes
    against a minimum duration of one hour. *)
Example validate_blackout_scenario :
  validate newYork2023 (Some (dateUTC 2023 11 10 0 0)) (Some (dateUTC 2023 11 12 0 0))
           (mkConstraints None None [dateUTC 2023 11 11 5 0] None None)
  = Violated ContainsBlackout.
Proof. reflexivity. Qed.

Example validate_duration_scenario (t : Instant) :
  validate newYork2023 (Some t) (Some (t + 30 * msPerMinute))
           (mkConstraints None None [] (Some msPerHour) None)
  = Violated TooShort.
Proof.
  assert (H : (t + 30 * msPerMinute - t <? msPerHour) = true).
  { apply Z.ltb_lt. unfold msPerMinute, msPerHour. lia. }
  unfold validate, belowMinimum, aboveMaximum, containsBlackout, tooShort.
  cbn [min max blackouts minDuration existsb]. now rewrite H.
Qed.

(** C9.  A click on a disabled date, one before [constraints.min], after
    [constraints.max] or on the zoned calendar day of a blackout date,
    changes nothing: the handler hands no value to [onChange], leaves the
    error as it was, and the picker (start, end, timezone and the
    component's own state) is the one before the click. *)
Theorem disabled_date_click_is_noop (db : TzDb) (host off : Instant -> Z)
    (c : Constraints) (p : Picker) (d : Instant) :
  db (timezone (value p)) = Some off ->
  BelowMin c d \/ AboveMax c d \/ OnBlackout off c d ->
  @handleDateSelect (specUtils db host) (value p) (Some c) (local p) d = (local p, [])
  /\ @dateClicked (specUtils db host) (Some c) p d = p.
Proof.
  intros Hz Hdis.
  assert (Hd : @isDateDisabled (specUtils db host) d (Some c) (timezone (value p)) = true).
  { cbn. rewrite Hz. now apply dateDisabled_iff. }
  split.
  - now apply handleDateSelect_disabled.
  - now apply dateClicked_disabled.
Qed.

(** C9 on the stories' constraints: a range from the 13th of November
    2023 without end, and a click on the cell of the 10th (its New York
    midnight), the zoned day the blackout date falls on. *)
Lemma disabled_date_click_is_noop_witness :
  let p := mount (mkRange (Some (dateUTC 2023 11 13 5 0)) None "America/New_York") in
  OnBlackout newYork2023 storyConstraints (dateUTC 2023 11 10 5 0)
  /\ @dateClicked storyUtils (Some storyConstraints) p (dateUTC 2023 11 10 5 0) = p.
Proof.
  intro p.
  assert (Hb : OnBlackout newYork2023 storyConstraints (dateUTC 2023 11 10 5 0)).
  { exists (dateUTC 2023 11 11 0 0). split; [now left | reflexivity]. }
  split; [exact Hb |].
  apply (proj2 (disabled_date_click_is_noop tzdata2023 (fun _ => 0) newYork2023
                  storyConstraints p (dateUTC 2023 11 10 5 0) eq_refl
                  (or_intror (or_intror Hb)))).
Defined.

(** ** The calendar header *)

(** What [startIndex] is for each weekday of the first day: the letters of
    Thursday and Sunday are found at the places of Tuesday and Saturday. *)
Lemma startIndex_by_weekday (db : TzDb) (tz : TimezoneId) (firstDay : Instant) (w : Weekday) :
  zonedWeekday db tz firstDay = Some w ->
  startIndex db tz firstDay =
    Some (match w with
          | Thu => 1
          | Sun => 5
          | _ => isoWeekdayIndex w
          end).
Proof.
  intros Hw. unfold startIndex, formatWeekdayNarrow. rewrite Hw.
  now destruct w.
Qed.

Lemma startIndex_agrees_off_thursday_sunday (db : TzDb) (tz : TimezoneId)
    (firstDay : Instant) (w : Weekday) :
  zonedWeekday db tz firstDay = Some w -> w <> Thu -> w <> Sun ->
  leadingBlanks db tz firstDay = Some (isoWeekdayIndex w).
Proof.
  intros Hw HThu HSun. unfold leadingBlanks.
  rewrite (startIndex_by_weekday _ _ _ _ Hw).
  destruct w; try reflexivity; congruence.
Qed.

(** C2 fails on the code.  June 2023 in Tokyo begins on a Thursday, at
    the instant 2023-05-31T15:00Z: the Monday-first index of the zoned
    weekday is 3, and the header puts 1 blank cell before the first day.
    October 2023 in New York begins on a Sunday, index 6, with 5 blanks. *)
Theorem leading_blanks_thursday_and_sunday :
  zonedWeekday tzdata2023 "Asia/Tokyo" (dateUTC 2023 5 31 15 0) = Some Thu /\
  isoWeekdayIndex Thu = 3 /\
  leadingBlanks tzdata2023 "Asia/Tokyo" (dateUTC 2023 5 31 15 0) = Some 1 /\
  zonedWeekday tzdata2023 "America/New_York" (dateUTC 2023 10 1 4 0) = Some Sun /\
  isoWeekdayIndex Sun = 6 /\
  leadingBlanks tzdata2023 "America/New_York" (dateUTC 2023 10 1 4 0) = Some 5.
Proof.
  repeat split.
Qed.

(** ** The Apply button *)

Section ApplyGate.
Context {U : Utils} {D : DateFnsTz}.
Variable constraints : option Constraints.

(** After an accepted date click and after a time edit the button follows
    the range and constraints of that moment. *)
Lemma apply_gate_after_date_click (p : Picker) (d : Instant) :
  isDateDisabled d constraints (timezone (value p)) = false ->
  let p' := dateClicked constraints p d in
  applyEnabled p' =
    bothPresent (value p')
    && negb (truthy (validateRange (start (value p')) (end_ (value p')) constraints)).
Proof.
  intros Hd p'. subst p'. revert Hd.
  destruct p as [[[s|] [e|] tz] l]; cbn [value timezone]; intros Hd.
  all: unfold dateClicked, handleDateSelect, isBefore; cbn [value timezone local].
  all: rewrite Hd; unfold applyEnabled, applyDisabled, bothPresent; cbn.
  all: try destruct (d <? s); cbn.
  all: match goal with
       | |- context [truthy ?x] => destruct (truthy x); reflexivity
       end.
Qed.

Lemma apply_gate_after_time_edit (p : Picker) (type : Endpoint) (field : Field) (val : Z) :
  let p' := timeFieldChanged constraints p type field val in
  applyEnabled p' =
    bothPresent (value p')
    && negb (truthy (validateRange (start (value p')) (end_ (value p')) constraints)).
Proof.
  intros p'. subst p'.
  destruct p as [[[s|] [e|] tz] l].
  all: unfold timeFieldChanged, handleTimeChange, applyEnabled, applyDisabled, bothPresent.
  all: destruct type; cbn.
  all: match goal with
       | |- context [truthy ?x] => destruct (truthy x); reflexivity
       end.
Qed.

(** After a preset the button is enabled, whatever range the preset gave. *)
Lemma apply_gate_after_preset (p : Picker) (preset : Preset) (now : Instant) :
  applyEnabled (presetClicked p preset now) = true.
Proof.
  reflexivity.
Qed.

End ApplyGate.

(** C1 fails on the code.  In the story [Default], five seconds after the
    module was loaded, the preset [Last 24 hours] gives a range that ends
    after [constraints.max]: [validate] answers AboveMaximum in every
    zone, and the Apply button is enabled. *)
Theorem apply_enabled_after_violating_preset :
  let p := presetClicked (mount defaultValue) last24Hours (storyLoad + 5000) in
  start (value p) = Some (storyLoad + 5000 - msPerDay) /\
  end_ (value p) = Some (storyLoad + 5000) /\
  applyEnabled p = true /\
  (forall zone, validate zone (start (value p)) (end_ (value p)) storyConstraints
                = Violated AboveMaximum) /\
  @validateRange storyUtils (start (value p)) (end_ (value p)) (Some storyConstraints)
    = Some "AboveMaximum".
Proof.
  repeat split.
Qed.

(** The same on mounting: the story [InvalidRange] shows a range that ends
    before it starts, which [validate] finds too short, with the button
    enabled. *)
Example apply_enabled_on_invalid_mount :
  let p := mount invalidRange in
  applyEnabled p = true /\
  validate newYork2023 (start (value p)) (end_ (value p)) storyConstraints
    = Violated TooShort.
Proof.
  repeat split.
Qed.

(** ** Runs of date clicks *)

Section ClickRuns.
Context {U : Utils}.
Variable constraints : option Constraints.

Lemma dateClicks_timezone (dates : list Instant) :
  forall p, timezone (value (dateClicks constraints p dates)) = timezone (value p).
Proof.
  induction dates as [|d dates IH]; intros p; cbn.
  - reflexivity.
  - unfold dateClicks in IH. rewrite IH. apply dateClicked_timezone.
Qed.

Lemma dateClicks_app (xs ys : list Instant) (p : Picker) :
  dateClicks constraints p (xs ++ ys) =
  dateClicks constraints (dateClicks constraints p xs) ys.
Proof.
  unfold dateClicks. apply fold_left_app.
Qed.

Lemma settled_click_restarts (p : Picker) (d : Instant) :
  settled (value p) ->
  isDateDisabled d constraints (timezone (value p)) = false ->
  value (dateClicked constraints p d) = mkRange (Some d) None (timezone (value p)).
Proof.
  intros Hs Hd. rewrite dateClicked_enabled by assumption.
  destruct Hs as [Hs | (s & e & Hs & He)].
  - rewrite Hs. now destruct (end_ (value p)).
  - now rewrite Hs, He.
Qed.

(** Two accepted clicks on a settled range. *)
Lemma two_accepted_clicks (p : Picker) (a b : Instant) :
  settled (value p) ->
  isDateDisabled a constraints (timezone (value p)) = false ->
  isDateDisabled b constraints (timezone (value p)) = false ->
  value (dateClicks constraints p [a; b]) =
    mkRange (Some (Z.min a b)) (Some (Z.max a b)) (timezone (value p)).
Proof.
  intros Hs Ha Hb. unfold dateClicks. cbn [fold_left].
  assert (H1 : value (dateClicked constraints p a) =
               mkRange (Some a) None (timezone (value p))).
  { now apply settled_click_restarts. }
  rewrite dateClicked_enabled by (rewrite H1; exact Hb).
  rewrite H1. cbn.
  destruct (b <? a) eqn:Hlt.
  - apply Z.ltb_lt in Hlt. now rewrite Z.min_r, Z.max_l by lia.
  - apply Z.ltb_ge in Hlt. now rewrite Z.min_l, Z.max_r by lia.
Qed.

End ClickRuns.

Section ClickRunFacts.
Context {U : Utils}.
Variable constraints : option Constraints.

Lemma even_run_settled (n : nat) :
  forall (pre : list Instant) (p : Picker),
    List.length pre = (2 * n)%nat ->
    settled (value p) ->
    Forall (fun d => isDateDisabled d constraints (timezone (value p)) = false) pre ->
    settled (value (dateClicks constraints p pre)).
Proof.
  induction n as [|n IH]; intros pre p Hlen Hs Hall.
  - destruct pre; [exact Hs | discriminate Hlen].
  - destruct pre as [|a [|b rest]]; cbn in Hlen; try lia.
    inversion Hall as [|? ? Ha Hall']; subst.
    inversion Hall' as [|? ? Hb Hrest]; subst.
    change (a :: b :: rest) with (([a; b] ++ rest)%list). rewrite dateClicks_app.
    pose proof (two_accepted_clicks constraints p a b Hs Ha Hb) as H2.
    apply IH.
    + lia.
    + right. rewrite H2. now exists (Z.min a b), (Z.max a b).
    + now rewrite dateClicks_timezone.
Qed.

Lemma apply_disabled_without_end (p : Picker) :
  end_ (value p) = None -> applyEnabled p = false.
Proof.
  intros He. unfold applyEnabled, applyDisabled. rewrite He.
  now rewrite orb_true_r.
Qed.

Lemma dateClicked_endpoints (p : Picker) (d x : Instant) :
  In x (endpoints (value (dateClicked constraints p d))) ->
  In x (endpoints (value p)) \/ x = d.
Proof.
  destruct (isDateDisabled d constraints (timezone (value p))) eqn:Hd.
  - rewrite dateClicked_disabled by assumption. now left.
  - rewrite dateClicked_enabled by assumption. unfold endpoints.
    destruct (start (value p)) as [s|], (end_ (value p)) as [e|]; cbn;
      try destruct (d <? s); cbn; intuition.
Qed.

End ClickRunFacts.

(** X1.  Disabled dates do not count in a run of date clicks: the run
    ends where the run of its enabled dates ends, component state
    included. *)
Theorem date_clicks_skip_disabled {U : Utils} (constraints : option Constraints)
    (dates : list Instant) (p : Picker) :
  dateClicks constraints p dates =
  dateClicks constraints p
    (filter (fun d => negb (isDateDisabled d constraints (timezone (value p)))) dates).
Proof.
  revert p. induction dates as [|d dates IH]; intros p; [reflexivity |].
  cbn [filter].
  destruct (isDateDisabled d constraints (timezone (value p))) eqn:Hd; cbn [negb].
  - unfold dateClicks at 1. cbn [fold_left].
    rewrite dateClicked_disabled by assumption. apply IH.
  - unfold dateClicks. cbn [fold_left].
    fold (dateClicks constraints (dateClicked constraints p d) dates).
    rewrite IH. rewrite dateClicked_timezone. reflexivity.
Qed.

(** X2.  Two clicks on enabled dates, from a range without start or with
    both ends, select the two dates in order, the earlier as start and
    the later as end whichever was clicked first; the error shown is
    what [validateRange] says of that pair, and Apply is enabled exactly
    when it says nothing. *)
Theorem two_clicks_select_ordered_pair {U : Utils} (constraints : option Constraints)
    (p : Picker) (a b : Instant) :
  settled (value p) ->
  isDateDisabled a constraints (timezone (value p)) = false ->
  isDateDisabled b constraints (timezone (value p)) = false ->
  let q := dateClicks constraints p [a; b] in
  let verdict := validateRange (Some (Z.min a b)) (Some (Z.max a b)) constraints in
  value q = mkRange (Some (Z.min a b)) (Some (Z.max a b)) (timezone (value p)) /\
  error (local q) = verdict /\
  applyEnabled q = negb (truthy verdict).
Proof.
  intros Hs Ha Hb q verdict.
  pose proof (two_accepted_clicks constraints p a b Hs Ha Hb) as Hv.
  assert (Hz : timezone (value (dateClicked constraints p a)) = timezone (value p))
    by apply dateClicked_timezone.
  assert (H1 : value (dateClicked constraints p a) =
               mkRange (Some a) None (timezone (value p)))
    by now apply settled_click_restarts.
  assert (Hb' : isDateDisabled b constraints
                  (timezone (value (dateClicked constraints p a))) = false)
    by now rewrite Hz.
  pose proof (apply_gate_after_date_click constraints (dateClicked constraints p a) b Hb')
    as Hgate.
  cbv zeta in Hgate.
  change (dateClicked constraints (dateClicked constraints p a) b)
    with (dateClicks constraints p [a; b]) in Hgate.
  assert (He : error (local q) = verdict).
  { subst q verdict. unfold dateClicks. cbn [fold_left].
    unfold dateClicked at 1. unfold handleDateSelect. rewrite Hb'.
    rewrite H1. cbn [start end_ timezone]. unfold isBefore.
    destruct (b <? a) eqn:Hlt; cbn.
    - apply Z.ltb_lt in Hlt. now rewrite Z.min_r, Z.max_l by lia.
    - apply Z.ltb_ge in Hlt. now rewrite Z.min_l, Z.max_r by lia. }
  split; [exact Hv | split; [exact He |]].
  subst q verdict. rewrite Hgate, Hv. reflexivity.
Qed.

(** X2 on the stories' constraints: the 15th of November 2023 clicked
    before the 13th, on the empty range. *)
Lemma two_clicks_select_ordered_pair_witness :
  let a := dateUTC 2023 11 15 5 0 in
  let b := dateUTC 2023 11 13 5 0 in
  let q := @dateClicks storyUtils (Some storyConstraints) (mount defaultValue) [a; b] in
  value q = mkRange (Some b) (Some a) "America/New_York" /\
  error (local q) = None /\
  applyEnabled q = true.
Proof.
  intros a b q.
  apply (@two_clicks_select_ordered_pair storyUtils (Some storyConstraints)
           (mount defaultValue) a b).
  - now left.
  - vm_compute. reflexivity.
  - vm_compute. reflexivity.
Defined.

(** X3.  Clicks on enabled dates alternate between opening and closing a
    range.  From a range without start or with both ends, after an even
    number of them one more click leaves the clicked date as start with
    no end and Apply disabled, and two more leave the ordered pair of
    the last two dates: what was selected before is forgotten. *)
Theorem accepted_clicks_alternate {U : Utils} (constraints : option Constraints)
    (p : Picker) (pre : list Instant) :
  settled (value p) ->
  Nat.even (List.length pre) = true ->
  Forall (fun d => isDateDisabled d constraints (timezone (value p)) = false) pre ->
  (forall d,
     isDateDisabled d constraints (timezone (value p)) = false ->
     value (dateClicks constraints p (pre ++ [d])) =
       mkRange (Some d) None (timezone (value p)) /\
     applyEnabled (dateClicks constraints p (pre ++ [d])) = false)
  /\
  (forall a b,
     isDateDisabled a constraints (timezone (value p)) = false ->
     isDateDisabled b constraints (timezone (value p)) = false ->
     value (dateClicks constraints p (pre ++ [a; b])) =
       mkRange (Some (Z.min a b)) (Some (Z.max a b)) (timezone (value p))).
Proof.
  intros Hs Heven Hall.
  apply Nat.even_spec in Heven. destruct Heven as [n Hn].
  pose proof (even_run_settled constraints n pre p Hn Hs Hall) as Hs'.
  pose proof (dateClicks_timezone constraints pre p) as Hz.
  split.
  - intros d Hd. rewrite dateClicks_app.
    assert (Hv : value (dateClicks constraints (dateClicks constraints p pre) [d]) =
                 mkRange (Some d) None (timezone (value p))).
    { unfold dateClicks at 1. cbn [fold_left].
      rewrite settled_click_restarts; [now rewrite Hz | exact Hs' | now rewrite Hz]. }
    split; [exact Hv |].
    apply apply_disabled_without_end. now rewrite Hv.
  - intros a b Ha Hb. rewrite dateClicks_app.
    rewrite two_accepted_clicks; [now rewrite Hz | exact Hs' | now rewrite Hz ..].
Qed.

(** X3 on the story [InvalidRange]: after clicks on the 14th and 16th of
    November 2023, a click on the 15th opens a new range, and clicks on
    the 15th and 13th close it as 13th to 15th. *)
Lemma accepted_clicks_alternate_witness :
  let pre := [dateUTC 2023 11 14 5 0; dateUTC 2023 11 16 5 0] in
  let a := dateUTC 2023 11 15 5 0 in
  let b := dateUTC 2023 11 13 5 0 in
  (value (@dateClicks storyUtils (Some storyConstraints) (mount invalidRange) (pre ++ [a])) =
     mkRange (Some a) None "America/New_York" /\
   applyEnabled (@dateClicks storyUtils (Some storyConstraints) (mount invalidRange)
                   (pre ++ [a])) = false)
  /\
  value (@dateClicks storyUtils (Some storyConstraints) (mount invalidRange)
           (pre ++ [a; b])) =
    mkRange (Some b) (Some a) "America/New_York".
Proof.
  intros pre a b.
  assert (Hs : settled (value (mount invalidRange))).
  { right. now exists (storyLoad + 5000), (storyLoad + 5000 - 10 * msPerDay). }
  assert (Hall : Forall (fun d => @isDateDisabled storyUtils d (Some storyConstraints)
                                    (timezone (value (mount invalidRange))) = false) pre).
  { repeat constructor. }
  destruct (@accepted_clicks_alternate storyUtils (Some storyConstraints)
              (mount invalidRange) pre Hs eq_refl Hall) as [Hodd Heven].
  split.
  - apply (Hodd a). vm_compute. reflexivity.
  - apply (Heven a b); vm_compute; reflexivity.
Defined.

(** X4.  Date clicks never make up an instant: each end of the range
    after a run of date clicks is an end of the range before it or one
    of the clicked dates, untouched by the time of day in the inputs. *)
Theorem date_clicks_keep_clicked_instants {U : Utils} (constraints : option Constraints)
    (dates : list Instant) (p : Picker) (x : Instant) :
  In x (endpoints (value (dateClicks constraints p dates))) ->
  In x (endpoints (value p)) \/ In x dates.
Proof.
  revert p. induction dates as [|d dates IH]; intros p Hin.
  - now left.
  - unfold dateClicks in Hin. cbn [fold_left] in Hin.
    apply IH in Hin. destruct Hin as [Hin | Hin].
    + apply dateClicked_endpoints in Hin. destruct Hin as [Hin | ->].
      * now left.
      * right. now left.
    + right. now right.
Qed.

(** X4 on a range that starts on the 13th of November 2023 at noon UTC,
    closed by a click on the cell of the 15th. *)
Lemma date_clicks_keep_clicked_instants_witness :
  let p := mount (mkRange (Some (dateUTC 2023 11 13 12 0)) None "America/New_York") in
  In (dateUTC 2023 11 13 12 0)
     (endpoints (value (@dateClicks storyUtils (Some storyConstraints) p
                          [dateUTC 2023 11 15 5 0])))
  /\ (In (dateUTC 2023 11 13 12 0) (endpoints (value p))
      \/ In (dateUTC 2023 11 13 12 0) [dateUTC 2023 11 15 5 0]).
Proof.
  intro p.
  assert (Hin : In (dateUTC 2023 11 13 12 0)
                   (endpoints (value (@dateClicks storyUtils (Some storyConstraints) p
                                        [dateUTC 2023 11 15 5 0])))).
  { now left. }
  split; [exact Hin |].
  exact (@date_clicks_keep_clicked_instants storyUtils (Some storyConstraints)
           [dateUTC 2023 11 15 5 0] p (dateUTC 2023 11 13 12 0) Hin).
Defined.

(** ** The highlighted cells *)

(** X5.  A range whose end lies before its start highlights no cell, and
    neither does a range with an end missing. *)
Theorem unordered_range_highlights_nothing (r : DateTimeRange) (date : Instant) :
  ~ (exists s e, start r = Some s /\ end_ r = Some e /\ s <= e) ->
  isInRange r date = false.
Proof.
  intros Hno. unfold isInRange.
  destruct (start r) as [s|]; [| reflexivity].
  destruct (end_ r) as [e|]; [| reflexivity].
  apply andb_false_iff.
  destruct (Z_le_gt_dec s date) as [Hs | Hs].
  - right. apply Z.leb_gt.
    destruct (Z_le_gt_dec date e) as [He | He]; [| lia].
    exfalso. apply Hno. exists s, e. repeat split; trivial. lia.
  - left. apply Z.leb_gt. lia.
Qed.

(** X5 on the story [InvalidRange], at a date between its end and start. *)
Lemma unordered_range_highlights_nothing_witness :
  isInRange invalidRange (storyLoad - 5 * msPerDay) = false.
Proof.
  apply unordered_range_highlights_nothing.
  intros (s & e & Hs & He & Hle).
  injection Hs as <-. injection He as <-. vm_compute in Hle. now apply Hle.
Defined.

(** X6.  The click on an enabled date that closes a range highlights the
    cells from the earlier to the later of the prior start and the
    clicked date, both included, and no others. *)
Theorem closing_click_highlights_between {U : Utils} (constraints : option Constraints)
    (p : Picker) (s d x : Instant) :
  start (value p) = Some s -> end_ (value p) = None ->
  isDateDisabled d constraints (timezone (value p)) = false ->
  isInRange (value (dateClicked constraints p d)) x =
    (Z.min s d <=? x) && (x <=? Z.max s d)
  /\ isInRange (value (dateClicked constraints p d)) s = true
  /\ isInRange (value (dateClicked constraints p d)) d = true.
Proof.
  intros Hs He Hd.
  rewrite dateClicked_enabled by assumption. rewrite Hs, He.
  unfold isInRange.
  destruct (d <? s) eqn:Hlt; cbn [start end_].
  - apply Z.ltb_lt in Hlt. rewrite Z.min_r, Z.max_l by lia.
    repeat split; trivial; apply andb_true_iff; split; apply Z.leb_le; lia.
  - apply Z.ltb_ge in Hlt. rewrite Z.min_l, Z.max_r by lia.
    repeat split; trivial; apply andb_true_iff; split; apply Z.leb_le; lia.
Qed.

(** X6 on a range that starts on the 15th of November 2023, closed by a
    click on the 13th: the 14th is highlighted. *)
Lemma closing_click_highlights_between_witness :
  let p := mount (mkRange (Some (dateUTC 2023 11 15 5 0)) None "America/New_York") in
  isInRange (value (@dateClicked storyUtils (Some storyConstraints) p
                      (dateUTC 2023 11 13 5 0)))
            (dateUTC 2023 11 14 5 0) = true.
Proof.
  intro p.
  rewrite (proj1 (@closing_click_highlights_between storyUtils (Some storyConstraints) p
                    (dateUTC 2023 11 15 5 0) (dateUTC 2023 11 13 5 0)
                    (dateUTC 2023 11 14 5 0) eq_refl eq_refl eq_refl)).
  reflexivity.
Defined.

(** ** Time edits *)

(** X7.  A time edit touches one end only: editing the start time leaves
    the end as it was and editing the end time leaves the start, the
    timezone stays, one value is handed to [onChange], and of the two
    times of day only the edited field of the edited one changes. *)
Theorem time_edit_touches_one_end {U : Utils} {D : DateFnsTz}
    (constraints : option Constraints) (p : Picker)
    (type : Endpoint) (field : Field) (val : Z) :
  let o := handleTimeChange (value p) constraints (local p) type field val in
  let q := timeFieldChanged constraints p type field val in
  List.length (snd o) = 1%nat /\
  timezone (value q) = timezone (value p) /\
  match type with
  | StartPoint =>
      end_ (value q) = end_ (value p) /\
      startTime (local q) = setField (startTime (local p)) field val /\
      endTime (local q) = endTime (local p)
  | EndPoint =>
      start (value q) = start (value p) /\
      endTime (local q) = setField (endTime (local p)) field val /\
      startTime (local q) = startTime (local p)
  end.
Proof.
  destruct p as [[s e tz] l].
  destruct type, s as [s|], e as [e|]; cbn; repeat split.
Qed.



(** ** Runs of events *)

Section Runs.
Context {U : Utils} {D : DateFnsTz}.
Variable constraints : option Constraints.

Lemma dispatch_timezone (p : Picker) (ev : Event) :
  timezone (value (dispatch constraints p ev)) =
    match ev with
    | TimezoneSelect tz => tz
    | _ => timezone (value p)
    end.
Proof.
  destruct ev as [d | type field val | preset now | tz]; cbn [dispatch].
  - apply dateClicked_timezone.
  - destruct p as [[s e tz] l]. destruct type, s, e; reflexivity.
  - reflexivity.
  - reflexivity.
Qed.

Lemma last_cons_default {A : Type} (a d : A) (l : list A) :
  last (a :: l) d = last l a.
Proof.
  revert a d. induction l as [|b l IH]; intros a d; [reflexivity |].
  change (last (a :: b :: l) d) with (last (b :: l) d).
  now rewrite (IH b d), (IH b a).
Qed.

Lemma dispatch_gate (p : Picker) (ev : Event) :
  gateFollowsValidation constraints p ->
  presetPasses constraints ev ->
  gateFollowsValidation constraints (dispatch constraints p ev).
Proof.
  intros Hg Hp. destruct ev as [d | type field val | preset now | tz]; cbn [dispatch].
  - destruct (isDateDisabled d constraints (timezone (value p))) eqn:Hd.
    + now rewrite dateClicked_disabled.
    + now apply apply_gate_after_date_click.
  - apply apply_gate_after_time_edit.
  - unfold gateFollowsValidation. cbn in Hp |- *.
    now rewrite (Hp (timezone (value p))).
  - exact Hg.
Qed.

Lemma dispatch_times_other (p : Picker) (ev : Event) :
  isTimeEdit ev = false -> timesOf (dispatch constraints p ev) = timesOf p.
Proof.
  destruct ev as [d | type field val | preset now | tz]; cbn [dispatch isTimeEdit];
    intros H; try discriminate H; try reflexivity.
  destruct (isDateDisabled d constraints (timezone (value p))) eqn:Hd.
  - now rewrite dateClicked_disabled.
  - unfold dateClicked, handleDateSelect. rewrite Hd.
    destruct (start (value p)), (end_ (value p)); try reflexivity.
    now destruct (isBefore d i).
Qed.

Lemma dispatch_times_edit (p q : Picker) (type : Endpoint) (field : Field) (val : Z) :
  timesOf p = timesOf q ->
  timesOf (dispatch constraints p (TimeEdit type field val)) =
  timesOf (dispatch constraints q (TimeEdit type field val)).
Proof.
  unfold timesOf. intros H. injection H as Hs He.
  destruct type; cbn; now rewrite Hs, He.
Qed.

Lemma run_times (events : list Event) :
  forall p q, timesOf p = timesOf q ->
    timesOf (run constraints p events) =
    timesOf (run constraints q (filter isTimeEdit events)).
Proof.
  induction events as [|ev events IH]; intros p q H; [exact H |].
  cbn [filter]. destruct (isTimeEdit ev) eqn:Hev.
  - destruct ev; try discriminate Hev.
    unfold run. cbn [fold_left]. apply IH. now apply dispatch_times_edit.
  - unfold run at 1. cbn [fold_left]. apply IH.
    now rewrite dispatch_times_other.
Qed.

End Runs.

(** X9.  Along any run of date clicks, time edits, timezone changes and
    presets whose ranges pass [validateRange], the Apply button keeps
    saying what [validateRange] says of the range shown, once it did so
    at the beginning: it is enabled exactly when both ends are present
    and [validateRange] returns nothing. *)
Theorem gate_follows_validation_along_runs {U : Utils} {D : DateFnsTz}
    (constraints : option Constraints) (events : list Event) (p : Picker) :
  gateFollowsValidation constraints p ->
  Forall (presetPasses constraints) events ->
  gateFollowsValidation constraints (run constraints p events).
Proof.
  revert p. induction events as [|ev events IH]; intros p Hg Hall.
  - exact Hg.
  - inversion Hall as [|? ? Hev Hrest]; subst.
    unfold run. cbn [fold_left]. apply IH; [| exact Hrest].
    now apply dispatch_gate.
Qed.

(** X9 on the empty range in the zone UTC, with a minimum of one hour and
    a maximum of seven days: a click, a time edit, a preset within the
    limits, a change of timezone and another click. *)
Lemma gate_follows_validation_along_runs_witness :
  let c := Some (mkConstraints None None [] (Some msPerHour) (Some (7 * msPerDay))) in
  let events :=
    [DateClick (dateUTC 2023 11 15 0 0);
     TimeEdit StartPoint HourField 9;
     PresetClick last24Hours (dateUTC 2023 11 20 12 0);
     TimezoneSelect "Asia/Tokyo";
     DateClick (dateUTC 2023 11 16 15 0)] in
  @gateFollowsValidation storyUtils c
    (@run storyUtils utcHost c (mount (mkRange None None "UTC")) events).
Proof.
  intros c events.
  apply (@gate_follows_validation_along_runs storyUtils utcHost c events
           (mount (mkRange None None "UTC"))).
  - reflexivity.
  - repeat constructor.
Defined.

(** X10.  The timezone of the range after a run of events is the last
    one chosen in the timezone select, or the one before the run when
    none was chosen: no click, time edit or preset changes it. *)
Theorem run_timezone_is_last_selected {U : Utils} {D : DateFnsTz}
    (constraints : option Constraints) (events : list Event) (p : Picker) :
  timezone (value (run constraints p events)) =
    last (selectedTimezones events) (timezone (value p)).
Proof.
  revert p. induction events as [|ev events IH]; intros p; [reflexivity |].
  unfold run. cbn [fold_left].
  fold (run constraints (dispatch constraints p ev) events).
  rewrite IH, dispatch_timezone.
  destruct ev as [d | type field val | preset now | tz]; try reflexivity.
  cbn [selectedTimezones flat_map app].
  fold (selectedTimezones events).
  symmetry. apply last_cons_default.
Qed.

(** X11.  The times of day shown in the two inputs depend on the time
    edits alone: a run of events leaves them where its time edits by
    themselves would, so no date click, preset or timezone change ever
    writes them. *)
Theorem time_inputs_follow_time_edits_only {U : Utils} {D : DateFnsTz}
    (constraints : option Constraints) (events : list Event) (p : Picker) :
  timesOf (run constraints p events) =
  timesOf (run constraints p (filter isTimeEdit events)).
Proof.
  now apply run_times.
Qed.

(** ** The keyboard *)

(** X12.  A key press changes the range only as Enter on a focused date
    that is enabled: any other key, a press with no date focused, and
    Enter on a disabled date hand nothing to [onChange] and leave the
    error and the times of day alone. *)
Theorem key_press_selects_only_by_enter {U : Utils} {F : DateFns}
    (constraints : option Constraints) (v : DateTimeRange) (l : LocalState)
    (focusedDate : option Instant) (key : string) :
  key <> "Enter" \/ focusedDate = None \/
  (exists f, focusedDate = Some f /\
             isDateDisabled f constraints (timezone v) = true) ->
  selection (handleKeyDown v constraints l focusedDate key) = (l, []).
Proof.
  intros H. unfold handleKeyDown.
  destruct focusedDate as [f|]; [| reflexivity].
  destruct (String.eqb key "ArrowLeft"); [reflexivity |].
  destruct (String.eqb key "ArrowRight"); [reflexivity |].
  destruct (String.eqb key "ArrowUp"); [reflexivity |].
  destruct (String.eqb key "ArrowDown"); [reflexivity |].
  destruct (String.eqb key "Enter") eqn:Hk; [| reflexivity].
  apply String.eqb_eq in Hk. cbn [selection].
  destruct H as [H | [H | (f' & Hf & Hd)]].
  - contradiction.
  - discriminate H.
  - injection Hf as <-. now apply handleDateSelect_disabled.
Qed.

(** X12 on the stories' constraints: Enter with the focus on the first of
    December 2023, a date after [constraints.max]. *)
Lemma key_press_selects_only_by_enter_witness :
  let l := mkLocal None (mkTime 0 0) (mkTime 23 59) in
  selection (@handleKeyDown storyUtils utcDays defaultValue (Some storyConstraints) l
               (Some (dateUTC 2023 12 1 5 0)) "Enter") = (l, []).
Proof.
  intro l.
  apply (@key_press_selects_only_by_enter storyUtils utcDays (Some storyConstraints)
           defaultValue l (Some (dateUTC 2023 12 1 5 0)) "Enter").
  right. right. exists (dateUTC 2023 12 1 5 0). split; reflexivity.
Defined.

(** ** The calendar header, continued *)

(** X13.  For a timezone the host resolves, the letter of the first day
    is always found among the column letters: [startIndex] is never -1
    and lies between 0 and 5, so the blank cells are as many as
    [startIndex]; for a timezone the host cannot resolve there is no
    header, the formatter throws. *)
Theorem startIndex_found_or_throws (db : TzDb) (tz : TimezoneId) (firstDay : Instant) :
  match db tz with
  | Some _ =>
      exists k, startIndex db tz firstDay = Some k /\ 0 <= k <= 5 /\
                leadingBlanks db tz firstDay = Some k
  | None => startIndex db tz firstDay = None /\ leadingBlanks db tz firstDay = None
  end.
Proof.
  unfold leadingBlanks, startIndex, formatWeekdayNarrow, zonedWeekday.
  destruct (db tz) as [off|]; [| now split].
  destruct (weekdayOfDay (zonedDay off firstDay));
    eexists; (split; [reflexivity | split; [cbn; lia | reflexivity]]).
Qed.

(** ** Order and the gate across events *)

(** X14.  Only a time edit or a preset can put the end before the start:
    a run without time edits, whose presets give ordered ranges, keeps an
    ordered range ordered through its date clicks and timezone changes. *)
Theorem order_kept_without_time_edits {U : Utils} {D : DateFnsTz}
    (constraints : option Constraints) (events : list Event) (p : Picker) :
  ordered (value p) ->
  forallb (fun ev => negb (isTimeEdit ev)) events = true ->
  Forall presetOrdered events ->
  ordered (value (run constraints p events)).
Proof.
  revert p. induction events as [|ev events IH]; intros p Ho Hno Hall.
  - exact Ho.
  - cbn [forallb] in Hno. apply andb_true_iff in Hno. destruct Hno as [Hev Hno].
    inversion Hall as [|? ? Hp Hrest]; subst.
    unfold run. cbn [fold_left]. apply IH; trivial.
    destruct ev as [d | type field val | preset now | tz]; cbn [dispatch].
    + now apply dateClicked_keeps_ordered.
    + discriminate Hev.
    + intros s e Hs He. cbn in Hs, He, Hp.
      injection Hs as <-. injection He as <-. apply Hp.
    + intros s e Hs He. now apply Ho.
Qed.

(** X14 on the empty range of the stories: a click, the preset of the
    last seven days, a change of timezone and two more clicks. *)
Lemma order_kept_without_time_edits_witness :
  let events :=
    [DateClick (dateUTC 2023 11 15 5 0);
     PresetClick last7Days (storyLoad + 5000);
     TimezoneSelect "Asia/Tokyo";
     DateClick (dateUTC 2023 11 16 15 0);
     DateClick (dateUTC 2023 11 13 15 0)] in
  ordered (value (@run storyUtils utcHost (Some storyConstraints)
                    (mount defaultValue) events)).
Proof.
  intro events.
  apply (@order_kept_without_time_edits storyUtils utcHost (Some storyConstraints)
           events (mount defaultValue)).
  - intros s e Hs. discriminate Hs.
  - reflexivity.
  - repeat constructor. intros tz. cbn. unfold msPerDay. lia.
Defined.

(** X15.  On mounting, the Apply button agrees with [validateRange]
    exactly when the range handed in lacks an end or passes it: a
    complete range that [validateRange] rejects is shown with the button
    enabled, since no error is computed before the first event. *)
Theorem gate_on_mount {U : Utils} (constraints : option Constraints) (v : DateTimeRange) :
  (gateFollowsValidation constraints (mount v) <->
   bothPresent v = false \/
   truthy (validateRange (start v) (end_ v) constraints) = false)
  /\ applyEnabled (mount v) = bothPresent v.
Proof.
  unfold gateFollowsValidation, applyEnabled, applyDisabled, bothPresent. cbn.
  destruct (start v) as [s|], (end_ v) as [e|]; cbn;
    destruct (truthy (validateRange _ _ constraints)); cbn;
    (split; [split; [intros H; try discriminate H; auto | intros [H | H]; try discriminate H; reflexivity] | reflexivity]).
Qed.
